(** * EventListener: a shallow embedding of
      [src/open_ephys/streaming/event_listener.py]

    The listener owns a ZeroMQ SUB socket, polls it in a loop, decodes the
    second frame of every two-frame message as UTF-8 JSON and hands the
    decoded value to one of two hooks.  The embedding keeps the shape of the
    Python code: the object is a record, its methods are functions threading
    that record, [print] and hook calls are appended to an output trace, and
    [try]/[except] is a match on the outcome of the guarded block. *)

From Stdlib Require Import List String Ascii ZArith Bool Lia.
From Stdlib Require Import DecimalString DecimalPos DecimalZ.
Import ListNotations.
Local Open Scope string_scope.
Local Open Scope list_scope.
Set Warnings "-register-all".

(** ** Values of the Python side *)

(** A [bytes] object, one frame of a multipart message. *)
Definition bytes := list Byte.byte.

(** What [json.loads] can return.  Numbers are opaque to the listener, so
    they are kept as their literal text. *)
Inductive json : Type :=
| JNull
| JBool (b : bool)
| JNum (literal : string)
| JStr (s : string)
| JList (xs : list json)
| JDict (items : list (string * json)).

(** The part of Python's exception hierarchy that the two [except] clauses
    of [start] tell apart. *)
Inductive py_exn : Type :=
| KeyboardInterrupt
| ExceptionOf (cls detail : string)   (* an instance of a class below Exception *)
| BaseExceptionOf (cls : string).     (* below BaseException only: SystemExit, GeneratorExit *)

Definition is_Exception (e : py_exn) : bool :=
  match e with
  | ExceptionOf _ _ => true
  | _ => false
  end.

(** Result of evaluating an expression or a block: a value, or a raise. *)
Inductive outcome (A : Type) : Type :=
| Return (a : A)
| Raise (e : py_exn).
Arguments Return {A} a.
Arguments Raise {A} e.

(** ** ZeroMQ objects, as far as the listener touches them *)

Inductive socket_type : Type := SUB.

Record zmq_context : Type := { ctx_terminated : bool }.

Record zmq_socket : Type := {
  sock_type : socket_type;
  sock_endpoints : list string;      (* connect() calls so far *)
  sock_subscriptions : list bytes;   (* SUBSCRIBE prefixes so far *)
  sock_closed : bool
}.

Definition zmq_Context : zmq_context := {| ctx_terminated := false |}.

Definition context_socket (c : zmq_context) (t : socket_type) : zmq_socket :=
  {| sock_type := t; sock_endpoints := [];
     sock_subscriptions := []; sock_closed := false |}.

Definition connect (s : zmq_socket) (endpoint : string) : zmq_socket :=
  {| sock_type := sock_type s;
     sock_endpoints := sock_endpoints s ++ [endpoint];
     sock_subscriptions := sock_subscriptions s;
     sock_closed := sock_closed s |}.

Definition setsockopt_SUBSCRIBE (s : zmq_socket) (prefix : bytes) : zmq_socket :=
  {| sock_type := sock_type s;
     sock_endpoints := sock_endpoints s;
     sock_subscriptions := sock_subscriptions s ++ [prefix];
     sock_closed := sock_closed s |}.

(** ** Hooks *)

Inductive hook : Type := SpikeHook | TtlHook.

(** What a caller-supplied callable does when it is entered with the decoded
    event: it may call [stop()] on the listener, and it returns or raises. *)
Record cb_effect : Type := {
  cb_stops : bool;
  cb_raises : option py_exn
}.

Definition callable : Type := json -> cb_effect.

(** What [self.spike_callback] / [self.ttl_callback] resolves to.
    [ClassStub] is the function of the class body, [def spike_callback(info)],
    reached through the instance and therefore bound to it; [Installed f] is
    a callable stored on the instance (or a proper override) that takes the
    event as its only argument. *)
Inductive hook_attr : Type :=
| ClassStub
| Installed (f : callable).

(** ** Output trace *)

Inductive event : Type :=
| Print (line : string)            (* print(line) *)
| PrintError (e : py_exn)          (* print(f"Error: {e}") *)
| Invoke (h : hook) (info : json). (* an installed callable entered with info *)

Fixpoint invocations (tr : list event) : list (hook * json) :=
  match tr with
  | [] => []
  | Invoke h info :: tr' => (h, info) :: invocations tr'
  | _ :: tr' => invocations tr'
  end.

Fixpoint error_lines (tr : list event) : list py_exn :=
  match tr with
  | [] => []
  | PrintError e :: tr' => e :: error_lines tr'
  | _ :: tr' => error_lines tr'
  end.

(** ** The object *)

Record EventListener : Type := {
  url : string;
  context : zmq_context;
  socket : zmq_socket;
  running : bool;
  spike_callback : hook_attr;
  ttl_callback : hook_attr
}.

Definition set_running (l : EventListener) (b : bool) : EventListener :=
  {| url := url l; context := context l; socket := socket l;
     running := b;
     spike_callback := spike_callback l; ttl_callback := ttl_callback l |}.

(** Assignment of callables to the two instance attributes. *)
Definition install (l : EventListener) (spike ttl : callable) : EventListener :=
  {| url := url l; context := context l; socket := socket l;
     running := running l;
     spike_callback := Installed spike; ttl_callback := Installed ttl |}.

(** ["%d" % port] *)
Definition format_d (n : Z) : string := NilZero.string_of_int (Z.to_int n).

(** [__init__(self, ip_address, port)] with its one line of output. *)
Definition init (ip_address : string) (port : Z) : EventListener * list event :=
  let u := ("tcp://" ++ ip_address ++ ":" ++ format_d port)%string in
  let c := zmq_Context in
  let s := context_socket c SUB in
  let s := connect s u in
  let s := setsockopt_SUBSCRIBE s [] in
  ({| url := u; context := c; socket := s; running := false;
      spike_callback := ClassStub; ttl_callback := ClassStub |},
   [Print ("Initialized EventListener at " ++ u)%string]).

Definition default_listener : EventListener := fst (init "127.0.0.1" 5557).

(** [stop(self)] *)
Definition stop (l : EventListener) : EventListener := set_running l false.

(** ** A block of statements: state, output, and a value or a raise *)

Definition block (A : Type) : Type :=
  EventListener -> EventListener * list event * outcome A.

Definition ret {A} (a : A) : block A := fun l => (l, [], Return a).

Definition raise {A} (e : py_exn) : block A := fun l => (l, [], Raise e).

Definition lift {A} (o : outcome A) : block A := fun l => (l, [], o).

Definition bind {A B} (m : block A) (k : A -> block B) : block B :=
  fun l =>
    match m l with
    | (l1, o1, Return a) =>
        match k a l1 with
        | (l2, o2, r) => (l2, o1 ++ o2, r)
        end
    | (l1, o1, Raise e) => (l1, o1, Raise e)
    end.

Notation "x <- m ;; k" := (bind m (fun x => k))
  (at level 61, m at next level, right associativity).

(** ** Expressions of the loop body *)

Fixpoint dict_get (items : list (string * json)) (key : string) : option json :=
  match items with
  | [] => None
  | (k, v) :: rest => if String.eqb k key then Some v else dict_get rest key
  end.

(** [info[key]] for a [str] key. *)
Definition getitem (info : json) (key : string) : outcome json :=
  match info with
  | JDict items =>
      match dict_get items key with
      | Some v => Return v
      | None => Raise (ExceptionOf "KeyError" key)
      end
  | JList _ => Raise (ExceptionOf "TypeError" "list indices must be integers or slices, not str")
  | JStr _ => Raise (ExceptionOf "TypeError" "string indices must be integers")
  | JNum _ => Raise (ExceptionOf "TypeError" "number is not subscriptable")
  | JBool _ => Raise (ExceptionOf "TypeError" "bool is not subscriptable")
  | JNull => Raise (ExceptionOf "TypeError" "NoneType is not subscriptable")
  end.

(** [v == s] for a [str] literal [s]. *)
Definition eq_str (v : json) (s : string) : bool :=
  match v with
  | JStr t => String.eqb t s
  | _ => false
  end.

Definition attr (h : hook) (l : EventListener) : hook_attr :=
  match h with
  | SpikeHook => spike_callback l
  | TtlHook => ttl_callback l
  end.

Definition hook_name (h : hook) : string :=
  match h with
  | SpikeHook => "spike_callback"
  | TtlHook => "ttl_callback"
  end.

(** [self.<hook>(info)].  The class stub is declared with the single
    parameter [info]; called through the instance it is handed the instance
    and the event, and the call fails before the body is entered. *)
Definition call_hook (h : hook) (info : json) : block unit :=
  fun l =>
    match attr h l with
    | ClassStub =>
        (l, [], Raise (ExceptionOf "TypeError"
                  ("EventListener." ++ hook_name h
                     ++ "() takes 1 positional argument but 2 were given")%string))
    | Installed f =>
        let eff := f info in
        (if cb_stops eff then stop l else l,
         [Invoke h info],
         match cb_raises eff with
         | Some e => Raise e
         | None => Return tt
         end)
    end.

(** ** The environment of one loop iteration *)

(** What [poller.poll(timeout=100)] followed by [recv_multipart()] yields. *)
Inductive poll_outcome : Type :=
| PollTimeout                    (* no data within 100 ms: events is empty *)
| PollReady (parts : list bytes) (* the socket is readable, recv gives parts *)
| PollInterrupted                (* the interrupt signal arrives while waiting *)
| PollError (detail : string).   (* poll or recv raises zmq.ZMQError *)

(** One turn of the loop as the outside world drives it: what the socket
    delivers, and whether some other thread calls [stop()] meanwhile. *)
Record tick : Type := {
  tick_stop : bool;
  tick_poll : poll_outcome
}.

Definition quiet (p : poll_outcome) : tick :=
  {| tick_stop := false; tick_poll := p |}.

(** Result of a library decoder: a value, or the detail of the error it
    raises (UnicodeDecodeError, json.JSONDecodeError: both below Exception). *)
Inductive decoded (A : Type) : Type :=
| Parsed (a : A)
| Rejected (detail : string).
Arguments Parsed {A} a.
Arguments Rejected {A} detail.

Inductive step_result : Type :=
| Next (l : EventListener) (out : list event)    (* back to the loop test *)
| Break (l : EventListener) (out : list event)   (* break *)
| Escape (e : py_exn) (l : EventListener) (out : list event). (* uncaught *)

Inductive exit_reason : Type := FlagCleared | Interrupted.

Inductive run_result : Type :=
| Returned (why : exit_reason) (l : EventListener) (out : list event)
| Raised (e : py_exn) (l : EventListener) (out : list event)
| Polling (l : EventListener) (out : list event). (* still in the loop *)

Definition emit_before (pre : list event) (r : run_result) : run_result :=
  match r with
  | Returned why l out => Returned why l (pre ++ out)
  | Raised e l out => Raised e l (pre ++ out)
  | Polling l out => Polling l (pre ++ out)
  end.

Definition result_state (r : run_result) : EventListener :=
  match r with
  | Returned _ l _ | Raised _ l _ | Polling l _ => l
  end.

Definition result_output (r : run_result) : list event :=
  match r with
  | Returned _ _ out | Raised _ _ out | Polling _ out => out
  end.

(** The listener as the guarded block of an iteration finds it. *)
Definition at_tick (l : EventListener) (t : tick) : EventListener :=
  if tick_stop t then stop l else l.

Section Listener.

(** The two library calls of line 98, [bytes.decode("utf-8")] and
    [json.loads], are parameters of the development. *)
Variable bytes_decode_utf8 : bytes -> decoded string.
Variable json_loads : string -> decoded json.

Definition decode (b : bytes) : outcome string :=
  match bytes_decode_utf8 b with
  | Parsed s => Return s
  | Rejected d => Raise (ExceptionOf "UnicodeDecodeError" d)
  end.

Definition loads (s : string) : outcome json :=
  match json_loads s with
  | Parsed v => Return v
  | Rejected d => Raise (ExceptionOf "JSONDecodeError" d)
  end.

(** Lines 96-102, for frames already received. *)
Definition dispatch (parts : list bytes) : block unit :=
  if Nat.eqb (List.length parts) 2 then
    text <- lift (decode (nth 1 parts [])) ;;
    info <- lift (loads text) ;;
    event_type <- lift (getitem info "event_type") ;;
    if eq_str event_type "spike" then call_hook SpikeHook info
    else call_hook TtlHook info
  else ret tt.

(** Lines 94-102: the block guarded by [try]. *)
Definition body (p : poll_outcome) : block unit :=
  match p with
  | PollTimeout => ret tt
  | PollReady parts => dispatch parts
  | PollInterrupted => raise KeyboardInterrupt
  | PollError detail => raise (ExceptionOf "ZMQError" detail)
  end.

(** Lines 93-107: [try] block and its two handlers. *)
Definition iteration (l : EventListener) (t : tick) : step_result :=
  match body (tick_poll t) (at_tick l t) with
  | (l1, out, Return _) => Next l1 out
  | (l1, out, Raise KeyboardInterrupt) =>
      Break l1 (out ++ [Print "Stopped by KeyboardInterrupt"])
  | (l1, out, Raise (ExceptionOf cls detail)) =>
      Next l1 (out ++ [PrintError (ExceptionOf cls detail)])
  | (l1, out, Raise (BaseExceptionOf cls)) =>
      Escape (BaseExceptionOf cls) l1 out
  end.

(** Line 92: [while self.running], driven by the ticks of the world. *)
Fixpoint run_loop (l : EventListener) (world : list tick) : run_result :=
  if running l then
    match world with
    | [] => Polling l []
    | t :: world' =>
        match iteration l t with
        | Next l' out => emit_before out (run_loop l' world')
        | Break l' out => Returned Interrupted l' out
        | Escape e l' out => Raised e l' out
        end
    end
  else Returned FlagCleared l [].

(** [start(self)], lines 86-109.  The poller of lines 89-90 is local to the
    call; what it reports is the [tick_poll] of each tick. *)
Definition start (l : EventListener) (world : list tick) : run_result :=
  match run_loop (set_running l true) world with
  | Returned why l' out =>
      Returned why l'
        ([Print "Starting EventListener"] ++ out ++ [Print "EventListener stopped."])
  | Raised e l' out => Raised e l' ([Print "Starting EventListener"] ++ out)
  | Polling l' out => Polling l' ([Print "Starting EventListener"] ++ out)
  end.

(** A call of [listener.start] with extra positional or keyword arguments:
    the signature is [def start(self, )], so any argument fails the call
    before the body runs. *)
Definition start_call (l : EventListener) (positional : list callable)
    (keywords : list (string * callable)) (world : list tick) : run_result :=
  match positional, keywords with
  | [], [] => start l world
  | [], (name, _) :: _ =>
      Raised (ExceptionOf "TypeError"
                ("EventListener.start() got an unexpected keyword argument " ++ name)%string) l []
  | _ :: _, _ =>
      Raised (ExceptionOf "TypeError"
                "EventListener.start() takes 1 positional argument but more were given") l []
  end.

(** The operations a caller can apply to a listener between its construction
    and the moment it is dropped.  The class defines no finaliser, no
    [close] and no context-manager protocol, so dropping the object runs no
    code of the class. *)
Inductive operation : Type :=
| OpStart (world : list tick)
| OpStop
| OpInstall (spike ttl : callable).

Definition apply_op (l : EventListener) (op : operation) : EventListener :=
  match op with
  | OpStart world => result_state (start l world)
  | OpStop => stop l
  | OpInstall spike ttl => install l spike ttl
  end.

(** The state in which the listener is dropped after the given operations. *)
Definition lifetime (l : EventListener) (ops : list operation) : EventListener :=
  fold_left apply_op ops l.

End Listener.

(** ** Sample frames and a sample codec

    The end-to-end scenarios of the specification as concrete frames, and a
    table standing for the two library decoders on exactly these frames. *)

Module Sample.

Definition q : string := String "034"%char EmptyString.

Definition spike_text : string :=
  ("{" ++ q ++ "event_type" ++ q ++ ":" ++ q ++ "spike" ++ q ++ ","
       ++ q ++ "unit_id" ++ q ++ ":3,"
       ++ q ++ "timestamp" ++ q ++ ":1000}")%string.

Definition ttl_text : string :=
  ("{" ++ q ++ "event_type" ++ q ++ ":" ++ q ++ "ttl" ++ q ++ ","
       ++ q ++ "channel" ++ q ++ ":2,"
       ++ q ++ "state" ++ q ++ ":1}")%string.

Definition channel_text : string :=
  ("{" ++ q ++ "channel" ++ q ++ ":5}")%string.

Definition garbage_text : string := "{not json".

Definition spike_event : json :=
  JDict [("event_type", JStr "spike"); ("unit_id", JNum "3");
         ("timestamp", JNum "1000")].

Definition ttl_event : json :=
  JDict [("event_type", JStr "ttl"); ("channel", JNum "2"); ("state", JNum "1")].

Definition channel_event : json := JDict [("channel", JNum "5")].

Definition topic : bytes := list_byte_of_string "ttl".
Definition spike_frame : bytes := list_byte_of_string spike_text.
Definition ttl_frame : bytes := list_byte_of_string ttl_text.
Definition channel_frame : bytes := list_byte_of_string channel_text.
Definition garbage_frame : bytes := list_byte_of_string garbage_text.
Definition broken_frame : bytes := [Byte.xff; Byte.xfe].

Definition is_ascii (b : Byte.byte) : bool := Nat.ltb (Byte.to_nat b) 128.

(** ASCII frames decode to themselves; the others used here are not UTF-8. *)
Definition bytes_decode_utf8 (b : bytes) : decoded string :=
  if forallb is_ascii b then Parsed (string_of_list_byte b)
  else Rejected "invalid start byte".

Definition json_loads (s : string) : decoded json :=
  if String.eqb s spike_text then Parsed spike_event
  else if String.eqb s ttl_text then Parsed ttl_event
  else if String.eqb s channel_text then Parsed channel_event
  else Rejected "Expecting property name enclosed in double quotes".

Definition iteration := iteration bytes_decode_utf8 json_loads.
Definition run_loop := run_loop bytes_decode_utf8 json_loads.
Definition start := start bytes_decode_utf8 json_loads.
Definition start_call := start_call bytes_decode_utf8 json_loads.
Definition lifetime := lifetime bytes_decode_utf8 json_loads.

(** Callables a caller might install. *)
Definition noop : callable := fun _ => {| cb_stops := false; cb_raises := None |}.
Definition stopper : callable := fun _ => {| cb_stops := true; cb_raises := None |}.
Definition failing : callable :=
  fun _ => {| cb_stops := false; cb_raises := Some (ExceptionOf "ValueError" "boom") |}.

Definition listener : EventListener := install default_listener noop noop.

End Sample.

(** A second table for [json.loads], with payloads that are valid JSON but
    not objects. *)
Module SampleScalar.

Definition number_frame : bytes := list_byte_of_string "5".
Definition null_frame : bytes := list_byte_of_string "null".
Definition list_frame : bytes := list_byte_of_string "[]".

Definition json_loads (s : string) : decoded json :=
  if String.eqb s "5" then Parsed (JNum "5")
  else if String.eqb s "null" then Parsed JNull
  else if String.eqb s "[]" then Parsed (JList [])
  else Sample.json_loads s.

Definition iteration := iteration Sample.bytes_decode_utf8 json_loads.
Definition start := start Sample.bytes_decode_utf8 json_loads.

End SampleScalar.

Definition step_output (r : step_result) : list event :=
  match r with
  | Next _ out | Break _ out | Escape _ _ out => out
  end.

Definition step_state (r : step_result) : EventListener :=
  match r with
  | Next l _ | Break l _ | Escape _ l _ => l
  end.


(** [l'] is [l] up to the value of the running flag. *)
Definition flag_variant (l l' : EventListener) : Prop :=
  exists b, l' = set_running l b.

(** A hook none of whose raises falls outside both [except] clauses. *)
Definition catchable (a : hook_attr) : Prop :=
  match a with
  | ClassStub => True
  | Installed f => forall info cls, cb_raises (f info) <> Some (BaseExceptionOf cls)
  end.

Definition hooks_catchable (l : EventListener) : Prop :=
  catchable (spike_callback l) /\ catchable (ttl_callback l).

(** A hook that, once entered, neither calls [stop()] nor raises anything
    but an exception below Exception. *)
Definition passive (a : hook_attr) : Prop :=
  match a with
  | ClassStub => True
  | Installed f =>
      forall info,
        cb_stops (f info) = false
        /\ forall e, cb_raises (f info) = Some e -> is_Exception e = true
  end.

Definition hooks_passive (l : EventListener) : Prop :=
  passive (spike_callback l) /\ passive (ttl_callback l).

(** A tick on which nothing asks the loop to end: no [stop()] from outside
    and no interrupt while polling. *)
Definition calm (t : tick) : bool :=
  negb (tick_stop t)
  && match tick_poll t with
     | PollInterrupted => false
     | _ => true
     end.

(** The same tick with the first frame of a two-frame message replaced. *)
Definition retopic (topic : bytes) (t : tick) : tick :=
  match tick_poll t with
  | PollReady [_; payload] =>
      {| tick_stop := tick_stop t; tick_poll := PollReady [topic; payload] |}
  | _ => t
  end.

(** The hook the test of line 99 selects for a value of [event_type]. *)
Definition selected (v : json) : hook :=
  if eq_str v "spike" then SpikeHook else TtlHook.

Definition is_print (ev : event) : bool :=
  match ev with
  | Print _ => true
  | _ => false
  end.

Create HintDb listener.

(** * Properties *)

(** ** The object outside the loop: [__init__] and [stop] *)

Example url_default : url default_listener = "tcp://127.0.0.1:5557".
Proof. reflexivity. Qed.

Lemma init_not_running (ip : string) (port : Z) : running (fst (init ip port)) = false.
Proof. reflexivity. Qed.

Lemma init_socket_open (ip : string) (port : Z) :
  sock_closed (socket (fst (init ip port))) = false
  /\ sock_endpoints (socket (fst (init ip port))) = [url (fst (init ip port))]
  /\ sock_subscriptions (socket (fst (init ip port))) = [[]].
Proof. repeat split. Qed.

Lemma set_running_same (l : EventListener) : set_running l (running l) = l.
Proof. destruct l; reflexivity. Qed.

Lemma set_running_twice (l : EventListener) (a b : bool) :
  set_running (set_running l a) b = set_running l b.
Proof. reflexivity. Qed.

Lemma flag_variant_refl (l : EventListener) : flag_variant l l.
Proof. exists (running l). symmetry. apply set_running_same. Qed.

Lemma flag_variant_stop (l : EventListener) : flag_variant l (stop l).
Proof. exists false. reflexivity. Qed.

Lemma flag_variant_trans (l1 l2 l3 : EventListener) :
  flag_variant l1 l2 -> flag_variant l2 l3 -> flag_variant l1 l3.
Proof.
  intros [a Ha] [b Hb]. exists b. subst. apply set_running_twice.
Qed.

Lemma flag_variant_frame (l l' : EventListener) :
  flag_variant l l' ->
  url l' = url l /\ context l' = context l /\ socket l' = socket l
  /\ spike_callback l' = spike_callback l /\ ttl_callback l' = ttl_callback l.
Proof. intros [b ->]. repeat split. Qed.

#[local] Hint Resolve flag_variant_refl flag_variant_stop : listener.

(** C8: [stop()] is total and idempotent: on every listener state it yields a
    state whose running flag is false, a second call changes nothing, and on
    a listener that is already stopped it is the identity. *)
Theorem stop_idempotent (l : EventListener) :
  running (stop l) = false
  /\ stop (stop l) = stop l
  /\ (running l = false -> stop l = l).
Proof.
  split; [reflexivity | split; [reflexivity |]].
  intros H. unfold stop. rewrite <- H. apply set_running_same.
Qed.

Lemma stop_idempotent_witness :
  running default_listener = false
  /\ running (stop default_listener) = false
  /\ stop (stop default_listener) = stop default_listener
  /\ stop default_listener = default_listener.
Proof.
  split; [reflexivity |].
  destruct (stop_idempotent default_listener) as (H1 & H2 & H3).
  split; [exact H1 | split; [exact H2 | apply H3; reflexivity]].
Defined.

(** C10: [stop()] writes the running flag and nothing else: the url, the
    context, the socket with its endpoint and its all-topics subscription,
    and the two hook attributes are those of the state before the call. *)
Theorem stop_frame (l : EventListener) :
  url (stop l) = url l
  /\ context (stop l) = context l
  /\ socket (stop l) = socket l
  /\ sock_endpoints (socket (stop l)) = sock_endpoints (socket l)
  /\ sock_subscriptions (socket (stop l)) = sock_subscriptions (socket l)
  /\ spike_callback (stop l) = spike_callback l
  /\ ttl_callback (stop l) = ttl_callback l.
Proof. repeat split. Qed.

(** ** One iteration *)

Lemma emit_before_nil (r : run_result) : emit_before [] r = r.
Proof. destruct r; reflexivity. Qed.

Lemma emit_before_state (pre : list event) (r : run_result) :
  result_state (emit_before pre r) = result_state r.
Proof. destruct r; reflexivity. Qed.

Lemma invocations_app (a b : list event) :
  invocations (a ++ b) = invocations a ++ invocations b.
Proof.
  induction a as [| ev a IH]; simpl; [reflexivity |].
  destruct ev; simpl; rewrite IH; reflexivity.
Qed.

Lemma call_hook_state (h : hook) (info : json) (l : EventListener) :
  flag_variant l (fst (fst (call_hook h info l))).
Proof.
  unfold call_hook. destruct (attr h l) as [| f]; simpl; auto with listener.
  destruct (cb_stops (f info)); auto with listener.
Qed.

Section LoopProperties.

Variable bytes_decode_utf8 : bytes -> decoded string.
Variable json_loads : string -> decoded json.

Local Abbreviation dispatch := (dispatch bytes_decode_utf8 json_loads).
Local Abbreviation body := (body bytes_decode_utf8 json_loads).
Local Abbreviation iteration := (iteration bytes_decode_utf8 json_loads).
Local Abbreviation run_loop := (run_loop bytes_decode_utf8 json_loads).
Local Abbreviation start := (start bytes_decode_utf8 json_loads).
Local Abbreviation lifetime := (lifetime bytes_decode_utf8 json_loads).

(** The guarded block, case by case on what the payload turns out to be. *)
Lemma dispatch_not_two (parts : list bytes) (l : EventListener) :
  List.length parts <> 2 -> dispatch parts l = (l, [], Return tt).
Proof.
  intros H. unfold dispatch.
  destruct (Nat.eqb_spec (List.length parts) 2); [contradiction | reflexivity].
Qed.

Lemma dispatch_bad_utf8 (parts : list bytes) (d : string) (l : EventListener) :
  List.length parts = 2 ->
  bytes_decode_utf8 (nth 1 parts []) = Rejected d ->
  dispatch parts l = (l, [], Raise (ExceptionOf "UnicodeDecodeError" d)).
Proof.
  intros Hlen Hdec. unfold dispatch, bind, lift, decode.
  rewrite Hlen, Hdec. reflexivity.
Qed.

Lemma dispatch_bad_json (parts : list bytes) (text d : string) (l : EventListener) :
  List.length parts = 2 ->
  bytes_decode_utf8 (nth 1 parts []) = Parsed text ->
  json_loads text = Rejected d ->
  dispatch parts l = (l, [], Raise (ExceptionOf "JSONDecodeError" d)).
Proof.
  intros Hlen Hdec Hjs. unfold dispatch, bind, lift, decode, loads.
  rewrite Hlen, Hdec. simpl. rewrite Hjs. reflexivity.
Qed.

Lemma dispatch_getitem_raises (parts : list bytes) (text : string) (info : json)
    (e : py_exn) (l : EventListener) :
  List.length parts = 2 ->
  bytes_decode_utf8 (nth 1 parts []) = Parsed text ->
  json_loads text = Parsed info ->
  getitem info "event_type" = Raise e ->
  dispatch parts l = (l, [], Raise e).
Proof.
  intros Hlen Hdec Hjs Hget. unfold dispatch, bind, lift, decode, loads.
  rewrite Hlen, Hdec. simpl. rewrite Hjs. simpl. rewrite Hget. reflexivity.
Qed.

Lemma dispatch_calls (parts : list bytes) (text : string) (info v : json)
    (l : EventListener) :
  List.length parts = 2 ->
  bytes_decode_utf8 (nth 1 parts []) = Parsed text ->
  json_loads text = Parsed info ->
  getitem info "event_type" = Return v ->
  dispatch parts l =
    call_hook (if eq_str v "spike" then SpikeHook else TtlHook) info l.
Proof.
  intros Hlen Hdec Hjs Hget. unfold dispatch, bind, lift, decode, loads.
  rewrite Hlen, Hdec. simpl. rewrite Hjs. simpl. rewrite Hget. simpl.
  destruct (eq_str v "spike");
    match goal with
    | |- context [call_hook ?h ?i ?s] => destruct (call_hook h i s) as [[? ?] ?]
    end; reflexivity.
Qed.

Lemma dispatch_state (parts : list bytes) (l : EventListener) :
  flag_variant l (fst (fst (dispatch parts l))).
Proof.
  unfold dispatch, bind, lift, decode, loads.
  destruct (Nat.eqb (List.length parts) 2); simpl; auto with listener.
  destruct (bytes_decode_utf8 (nth 1 parts [])) as [text | d]; simpl;
    auto with listener.
  destruct (json_loads text) as [info | d]; simpl; auto with listener.
  destruct (getitem info "event_type") as [v | e]; simpl; auto with listener.
  destruct (eq_str v "spike").
  - pose proof (call_hook_state SpikeHook info l) as H.
    destruct (call_hook SpikeHook info l) as [[l' o] r]. exact H.
  - pose proof (call_hook_state TtlHook info l) as H.
    destruct (call_hook TtlHook info l) as [[l' o] r]. exact H.
Qed.

Lemma body_state (p : poll_outcome) (l : EventListener) :
  flag_variant l (fst (fst (body p l))).
Proof.
  destruct p; simpl; auto with listener. apply dispatch_state.
Qed.

Lemma at_tick_state (l : EventListener) (t : tick) : flag_variant l (at_tick l t).
Proof. unfold at_tick. destruct (tick_stop t); auto with listener. Qed.

Lemma iteration_state (l : EventListener) (t : tick) :
  flag_variant l (step_state (iteration l t)).
Proof.
  unfold iteration.
  pose proof (body_state (tick_poll t) (at_tick l t)) as H.
  apply (flag_variant_trans _ _ _ (at_tick_state l t)).
  destruct (body (tick_poll t) (at_tick l t)) as [[l1 out] [u | [| cls d | cls]]];
    exact H.
Qed.

Lemma run_loop_state (world : list tick) (l : EventListener) :
  flag_variant l (result_state (run_loop l world)).
Proof.
  revert l. induction world as [| t world IH]; intros l; simpl.
  - destruct (running l); simpl; auto with listener.
  - destruct (running l); simpl; auto with listener.
    pose proof (iteration_state l t) as H.
    destruct (iteration l t) as [l' out | l' out | e l' out]; simpl in *; auto.
    rewrite emit_before_state.
    exact (flag_variant_trans _ _ _ H (IH l')).
Qed.

Lemma start_state (l : EventListener) (world : list tick) :
  flag_variant l (result_state (start l world)).
Proof.
  unfold start.
  pose proof (run_loop_state world (set_running l true)) as H.
  assert (H0 : flag_variant l (set_running l true)) by (exists true; reflexivity).
  pose proof (flag_variant_trans _ _ _ H0 H) as H1.
  destruct (run_loop (set_running l true) world); exact H1.
Qed.


Lemma run_loop_cons (l : EventListener) (t : tick) (world : list tick) :
  running l = true ->
  run_loop l (t :: world) =
    match iteration l t with
    | Next l' out => emit_before out (run_loop l' world)
    | Break l' out => Returned Interrupted l' out
    | Escape e l' out => Raised e l' out
    end.
Proof. intros H. simpl. rewrite H. reflexivity. Qed.

Lemma run_loop_stopped (l : EventListener) (world : list tick) :
  running l = false -> run_loop l world = Returned FlagCleared l [].
Proof. intros H. destruct world; simpl; rewrite H; reflexivity. Qed.

Lemma iteration_of_body (l l1 : EventListener) (t : tick) (out : list event)
    (r : outcome unit) :
  body (tick_poll t) (at_tick l t) = (l1, out, r) ->
  iteration l t =
    match r with
    | Return _ => Next l1 out
    | Raise KeyboardInterrupt => Break l1 (out ++ [Print "Stopped by KeyboardInterrupt"])
    | Raise (ExceptionOf cls detail) =>
        Next l1 (out ++ [PrintError (ExceptionOf cls detail)])
    | Raise (BaseExceptionOf cls) => Escape (BaseExceptionOf cls) l1 out
    end.
Proof. intros H. unfold iteration. rewrite H. reflexivity. Qed.

(** C6: a received message that does not have exactly two parts is dropped
    in silence: the iteration produces no output at all (no hook is entered,
    no line is printed), leaves the listener as it found it, and hands
    control back to the loop test, so a running loop goes on with the rest
    of the world. *)
Theorem wrong_part_count_ignored (l : EventListener) (t : tick)
    (parts : list bytes) (world : list tick) :
  tick_poll t = PollReady parts ->
  List.length parts <> 2 ->
  iteration l t = Next (at_tick l t) []
  /\ invocations (step_output (iteration l t)) = []
  /\ error_lines (step_output (iteration l t)) = []
  /\ (running l = true -> run_loop l (t :: world) = run_loop (at_tick l t) world).
Proof.
  intros Hpoll Hlen.
  assert (Hit : iteration l t = Next (at_tick l t) []).
  { apply (iteration_of_body l (at_tick l t) t [] (Return tt)).
    rewrite Hpoll. simpl. apply dispatch_not_two. exact Hlen. }
  rewrite Hit. repeat split.
  intros Hrun. rewrite (run_loop_cons l t world Hrun), Hit.
  apply emit_before_nil.
Qed.

(** C7: a two-part message whose second part is not valid UTF-8, or is
    valid UTF-8 but not valid JSON, makes the guarded block raise an
    exception below Exception; the handler prints one error line for it, no
    hook is entered, and control goes back to the loop test, so a running
    loop goes on with the rest of the world. *)
Theorem malformed_payload_logged (l : EventListener) (t : tick)
    (parts : list bytes) (world : list tick) :
  tick_poll t = PollReady parts ->
  List.length parts = 2 ->
  (exists d, bytes_decode_utf8 (nth 1 parts []) = Rejected d)
  \/ (exists text d, bytes_decode_utf8 (nth 1 parts []) = Parsed text
                     /\ json_loads text = Rejected d) ->
  exists e,
    is_Exception e = true
    /\ iteration l t = Next (at_tick l t) [PrintError e]
    /\ invocations (step_output (iteration l t)) = []
    /\ (running l = true ->
        run_loop l (t :: world) =
          emit_before [PrintError e] (run_loop (at_tick l t) world)).
Proof.
  intros Hpoll Hlen Hbad.
  assert (Hbody : exists cls d,
             body (tick_poll t) (at_tick l t)
             = (at_tick l t, [], Raise (ExceptionOf cls d))).
  { rewrite Hpoll. simpl.
    destruct Hbad as [[d Hd] | (text & d & Hd & Hj)].
    - exists "UnicodeDecodeError", d. apply dispatch_bad_utf8; assumption.
    - exists "JSONDecodeError", d. apply (dispatch_bad_json parts text); assumption. }
  destruct Hbody as (cls & d & Hbody).
  pose proof (iteration_of_body _ _ _ _ _ Hbody) as Hit. simpl in Hit.
  exists (ExceptionOf cls d). rewrite Hit. repeat split.
  intros Hrun. rewrite (run_loop_cons l t world Hrun), Hit. reflexivity.
Qed.

(** C2 (amended): a two-part message whose payload parses to an object
    without an [event_type] key makes the lookup raise KeyError; the handler
    prints one error line for it, neither hook is entered, and a running
    loop goes on. *)
Theorem missing_event_type_logged (l : EventListener) (t : tick)
    (parts : list bytes) (text : string) (items : list (string * json))
    (world : list tick) :
  tick_poll t = PollReady parts ->
  List.length parts = 2 ->
  bytes_decode_utf8 (nth 1 parts []) = Parsed text ->
  json_loads text = Parsed (JDict items) ->
  dict_get items "event_type" = None ->
  iteration l t
    = Next (at_tick l t) [PrintError (ExceptionOf "KeyError" "event_type")]
  /\ invocations (step_output (iteration l t)) = []
  /\ (running l = true ->
      run_loop l (t :: world) =
        emit_before [PrintError (ExceptionOf "KeyError" "event_type")]
          (run_loop (at_tick l t) world)).
Proof.
  intros Hpoll Hlen Hdec Hjs Hkey.
  assert (Hbody : body (tick_poll t) (at_tick l t)
                  = (at_tick l t, [], Raise (ExceptionOf "KeyError" "event_type"))).
  { rewrite Hpoll. simpl.
    apply (dispatch_getitem_raises parts text (JDict items)); try assumption.
    simpl. rewrite Hkey. reflexivity. }
  pose proof (iteration_of_body _ _ _ _ _ Hbody) as Hit. simpl in Hit.
  rewrite Hit. repeat split.
  intros Hrun. rewrite (run_loop_cons l t world Hrun), Hit. reflexivity.
Qed.

(** ** Dispatch to installed callables *)

Lemma at_tick_hooks (l : EventListener) (t : tick) (h : hook) :
  attr h (at_tick l t) = attr h l.
Proof. unfold at_tick. destruct (tick_stop t), h; reflexivity. Qed.

(** X1: with callables installed on both attributes, a decoded object that has
    an [event_type] entry enters exactly one of them, once, with the decoded
    object: the spike one when the entry is the string "spike", the TTL one
    otherwise. *)
Lemma dispatch_exactly_one (l : EventListener) (t : tick) (parts : list bytes)
    (text : string) (info v : json) (f g : callable) :
  tick_poll t = PollReady parts ->
  List.length parts = 2 ->
  bytes_decode_utf8 (nth 1 parts []) = Parsed text ->
  json_loads text = Parsed info ->
  getitem info "event_type" = Return v ->
  spike_callback l = Installed f ->
  ttl_callback l = Installed g ->
  invocations (step_output (iteration l t))
  = [(if eq_str v "spike" then SpikeHook else TtlHook, info)].
Proof.
  intros Hpoll Hlen Hdec Hjs Hget Hf Hg.
  unfold iteration. rewrite Hpoll. simpl.
  rewrite (dispatch_calls parts text info v _ Hlen Hdec Hjs Hget).
  unfold call_hook.
  destruct (eq_str v "spike"); rewrite at_tick_hooks; simpl;
    [rewrite Hf | rewrite Hg];
    match goal with
    | |- context [cb_raises ?x] => destruct (cb_raises x) as [[| cls d | cls] |]
    end; simpl; try rewrite invocations_app; reflexivity.
Qed.

(** ** What leaves [start] *)

Lemma getitem_raises_Exception (info : json) (key : string) (e : py_exn) :
  getitem info key = Raise e -> is_Exception e = true.
Proof.
  destruct info as [| b | n | s | xs | items]; simpl;
    try (intros H; inversion H; reflexivity).
  destruct (dict_get items key); intros H; inversion H; reflexivity.
Qed.

Lemma call_hook_catchable (h : hook) (info : json) (l : EventListener) (cls : string) :
  catchable (attr h l) ->
  snd (call_hook h info l) <> Raise (BaseExceptionOf cls).
Proof.
  unfold call_hook. intros Hc. destruct (attr h l) as [| f]; simpl.
  - discriminate.
  - simpl in Hc. specialize (Hc info). destruct (cb_raises (f info)) as [e |].
    + intros H. inversion H; subst. apply (Hc cls). reflexivity.
    + discriminate.
Qed.

Lemma hooks_catchable_variant (l l' : EventListener) :
  flag_variant l l' -> hooks_catchable l -> hooks_catchable l'.
Proof.
  intros Hv [Hs Ht]. destruct (flag_variant_frame _ _ Hv) as (_ & _ & _ & Es & Et).
  unfold hooks_catchable. rewrite Es, Et. split; assumption.
Qed.

Lemma hooks_catchable_attr (l : EventListener) (h : hook) :
  hooks_catchable l -> catchable (attr h l).
Proof. intros [Hs Ht]. destruct h; assumption. Qed.

Lemma dispatch_catchable (parts : list bytes) (l : EventListener) (cls : string) :
  hooks_catchable l ->
  snd (dispatch parts l) <> Raise (BaseExceptionOf cls).
Proof.
  intros Hc.
  destruct (Nat.eq_dec (List.length parts) 2) as [Hlen | Hlen];
    [| rewrite dispatch_not_two by assumption; discriminate].
  destruct (bytes_decode_utf8 (nth 1 parts [])) as [text | d] eqn:Hdec;
    [| rewrite (dispatch_bad_utf8 parts d) by assumption; discriminate].
  destruct (json_loads text) as [info | d] eqn:Hjs;
    [| rewrite (dispatch_bad_json parts text d) by assumption; discriminate].
  destruct (getitem info "event_type") as [v | e] eqn:Hget.
  - rewrite (dispatch_calls parts text info v) by assumption.
    apply call_hook_catchable, hooks_catchable_attr, Hc.
  - rewrite (dispatch_getitem_raises parts text info e) by assumption.
    apply getitem_raises_Exception in Hget.
    simpl. intros H. inversion H; subst. discriminate.
Qed.

Lemma body_catchable (p : poll_outcome) (l : EventListener) (cls : string) :
  hooks_catchable l ->
  snd (body p l) <> Raise (BaseExceptionOf cls).
Proof.
  intros Hc. destruct p; simpl; try discriminate.
  apply dispatch_catchable, Hc.
Qed.




(** ** The running flag at exit *)



(** ** Leaving the loop after [stop()] *)

Lemma call_hook_keeps_stopped (h : hook) (info : json) (l : EventListener) :
  running l = false -> running (fst (fst (call_hook h info l))) = false.
Proof.
  intros Hr. unfold call_hook. destruct (attr h l) as [| f]; simpl; [exact Hr |].
  destruct (cb_stops (f info)); [reflexivity | exact Hr].
Qed.

Lemma body_keeps_stopped (p : poll_outcome) (l : EventListener) :
  running l = false -> running (fst (fst (body p l))) = false.
Proof.
  intros Hr. destruct p as [| parts | | d]; simpl; try exact Hr.
  destruct (Nat.eq_dec (List.length parts) 2) as [Hlen | Hlen];
    [| rewrite dispatch_not_two by assumption; exact Hr].
  destruct (bytes_decode_utf8 (nth 1 parts [])) as [text | d] eqn:Hdec;
    [| rewrite (dispatch_bad_utf8 parts d) by assumption; exact Hr].
  destruct (json_loads text) as [info | d] eqn:Hjs;
    [| rewrite (dispatch_bad_json parts text d) by assumption; exact Hr].
  destruct (getitem info "event_type") as [v | e] eqn:Hget.
  - rewrite (dispatch_calls parts text info v) by assumption.
    apply call_hook_keeps_stopped, Hr.
  - rewrite (dispatch_getitem_raises parts text info e) by assumption. exact Hr.
Qed.

(** Once [stop()] has been called during an iteration, [start] returns at
    the end of that iteration whatever the world holds next (unless a
    callable raised past both handlers). *)
Lemma stop_ends_loop (l : EventListener) (t : tick) (world : list tick) :
  hooks_catchable l ->
  running l = true ->
  tick_stop t = true ->
  exists why l' out,
    run_loop l (t :: world) = Returned why l' out /\ running l' = false.
Proof.
  intros Hc Hr Hs. rewrite (run_loop_cons l t world Hr).
  assert (Hstopped : running (at_tick l t) = false)
    by (unfold at_tick; rewrite Hs; reflexivity).
  pose proof (body_keeps_stopped (tick_poll t) _ Hstopped) as Hb.
  assert (Hc' : hooks_catchable (at_tick l t))
    by (apply (hooks_catchable_variant l); [apply at_tick_state | exact Hc]).
  pose proof (body_catchable (tick_poll t) (at_tick l t)) as Hnb.
  unfold iteration.
  destruct (body (tick_poll t) (at_tick l t)) as [[l1 out] r]. simpl in Hb.
  destruct r as [u | [| c d | c]].
  - rewrite (run_loop_stopped l1 world Hb). simpl. eauto.
  - eauto.
  - rewrite (run_loop_stopped l1 world Hb). simpl. eauto.
  - exfalso. apply (Hnb c Hc'). reflexivity.
Qed.

(** ** The socket over the listener's lifetime *)




(** ** Further properties of one iteration *)

(** What the dispatch of lines 96-102 can do, in two cases: either no hook
    is entered, nothing is printed by the block and the listener is left as
    it was; or the payload decoded to an object with an [event_type] entry
    and the installed callable selected by it was entered once. *)
Lemma dispatch_cases (parts : list bytes) (l : EventListener) :
  (exists r, dispatch parts l = (l, [], r)
             /\ (r = Return tt \/ exists cls d, r = Raise (ExceptionOf cls d)))
  \/ (exists text info v f,
        List.length parts = 2
        /\ bytes_decode_utf8 (nth 1 parts []) = Parsed text
        /\ json_loads text = Parsed info
        /\ getitem info "event_type" = Return v
        /\ attr (selected v) l = Installed f
        /\ dispatch parts l
           = (if cb_stops (f info) then stop l else l,
              [Invoke (selected v) info],
              match cb_raises (f info) with
              | Some e => Raise e
              | None => Return tt
              end)).
Proof.
  destruct (Nat.eq_dec (List.length parts) 2) as [Hlen | Hlen];
    [| left; exists (Return tt); rewrite dispatch_not_two by assumption; auto].
  destruct (bytes_decode_utf8 (nth 1 parts [])) as [text | d] eqn:Hdec;
    [| left; eexists; rewrite (dispatch_bad_utf8 parts d) by assumption; eauto].
  destruct (json_loads text) as [info | d] eqn:Hjs;
    [| left; eexists; rewrite (dispatch_bad_json parts text d) by assumption; eauto].
  destruct (getitem info "event_type") as [v | e] eqn:Hget.
  - rewrite (dispatch_calls parts text info v) by assumption.
    fold (selected v). unfold call_hook.
    destruct (attr (selected v) l) as [| f] eqn:Hattr.
    + left. eexists. split; [reflexivity | eauto].
    + right. exists text, info, v, f. repeat split; assumption.
  - left. exists (Raise e).
    rewrite (dispatch_getitem_raises parts text info e) by assumption.
    split; [reflexivity | right].
    pose proof (getitem_raises_Exception _ _ _ Hget) as He.
    destruct e; try discriminate. eauto.
Qed.

(** The output of one iteration: what the guarded block emitted, which is
    nothing or one hook entry, followed by what a handler printed. *)
Lemma iteration_shape (l : EventListener) (t : tick) :
  exists pre post,
    step_output (iteration l t) = pre ++ post
    /\ (pre = [] \/ exists parts text info v,
                      tick_poll t = PollReady parts
                      /\ List.length parts = 2
                      /\ bytes_decode_utf8 (nth 1 parts []) = Parsed text
                      /\ json_loads text = Parsed info
                      /\ getitem info "event_type" = Return v
                      /\ pre = [Invoke (selected v) info])
    /\ (post = [] \/ (exists e, post = [PrintError e])
                  \/ post = [Print "Stopped by KeyboardInterrupt"]).
Proof.
  unfold iteration.
  destruct (tick_poll t) as [| parts | | d] eqn:Hpoll; simpl.
  - exists [], []. auto.
  - destruct (dispatch_cases parts (at_tick l t))
      as [(r & Hd & Hr) | (text & info & v & f & Hlen & Hdec & Hjs & Hget & _ & Hd)];
      rewrite Hd.
    + destruct Hr as [-> | (cls & d & ->)].
      * exists [], []. auto.
      * exists [], [PrintError (ExceptionOf cls d)].
        split; [reflexivity | split; [left; reflexivity |]].
        right. left. eexists. reflexivity.
    + assert (Hpre : [Invoke (selected v) info] = []
                     \/ exists parts0 text0 info0 v0,
                          PollReady parts = PollReady parts0
                          /\ List.length parts0 = 2
                          /\ bytes_decode_utf8 (nth 1 parts0 []) = Parsed text0
                          /\ json_loads text0 = Parsed info0
                          /\ getitem info0 "event_type" = Return v0
                          /\ [Invoke (selected v) info] = [Invoke (selected v0) info0])
        by (right; exists parts, text, info, v; repeat split; assumption).
      destruct (cb_raises (f info)) as [[| cls d | cls] |]; simpl.
      * exists [Invoke (selected v) info], [Print "Stopped by KeyboardInterrupt"].
        split; [reflexivity | split; [exact Hpre |]]. right. right. reflexivity.
      * exists [Invoke (selected v) info], [PrintError (ExceptionOf cls d)].
        split; [reflexivity | split; [exact Hpre |]].
        right. left. eexists. reflexivity.
      * exists [Invoke (selected v) info], [].
        split; [reflexivity | split; [exact Hpre |]]. left. reflexivity.
      * exists [Invoke (selected v) info], [].
        split; [reflexivity | split; [exact Hpre |]]. left. reflexivity.
  - exists [], [Print "Stopped by KeyboardInterrupt"].
    split; [reflexivity | split; [left; reflexivity |]]. right. right. reflexivity.
  - exists [], [PrintError (ExceptionOf "ZMQError" d)].
    split; [reflexivity | split; [left; reflexivity |]].
    right. left. eexists. reflexivity.
Qed.

Lemma iteration_invocations_le (l : EventListener) (t : tick) :
  List.length (invocations (step_output (iteration l t))) <= 1.
Proof.
  destruct (iteration_shape l t) as (pre & post & -> & Hpre & Hpost).
  rewrite invocations_app, length_app.
  assert (Hpost0 : invocations post = [])
    by (destruct Hpost as [-> | [(e & ->) | ->]]; reflexivity).
  rewrite Hpost0.
  destruct Hpre as [-> | (parts & text & info & v & _ & _ & _ & _ & _ & ->)];
    simpl; lia.
Qed.

(** X2: whatever arrives, one iteration enters at most one hook and
    prints at most one error line. *)
Theorem one_hook_per_iteration (l : EventListener) (t : tick) :
  List.length (invocations (step_output (iteration l t))) <= 1
  /\ List.length (error_lines (step_output (iteration l t))) <= 1.
Proof.
  destruct (iteration_shape l t) as (pre & post & -> & Hpre & Hpost).
  destruct Hpre as [-> | (parts & text & info & v & _ & _ & _ & _ & _ & ->)];
    destruct Hpost as [-> | [(e & ->) | ->]]; simpl; lia.
Qed.

(** X3: a hook is entered only with the value decoded from the second
    frame of a two-frame message, only when that value has an [event_type]
    entry, and the hook entered is the spike one exactly when that entry is
    the string "spike". *)
Theorem invocation_sound (l : EventListener) (t : tick) (h : hook) (info : json) :
  In (h, info) (invocations (step_output (iteration l t))) ->
  exists parts text v,
    tick_poll t = PollReady parts
    /\ List.length parts = 2
    /\ bytes_decode_utf8 (nth 1 parts []) = Parsed text
    /\ json_loads text = Parsed info
    /\ getitem info "event_type" = Return v
    /\ h = (if eq_str v "spike" then SpikeHook else TtlHook).
Proof.
  destruct (iteration_shape l t) as (pre & post & -> & Hpre & Hpost).
  rewrite invocations_app.
  assert (Hnone : invocations post = [])
    by (destruct Hpost as [-> | [(e & ->) | ->]]; reflexivity).
  rewrite Hnone, app_nil_r.
  destruct Hpre as [-> | (parts & text & info0 & v & Hp & Hlen & Hdec & Hjs & Hget & ->)];
    simpl; [contradiction |].
  intros [Heq | []]. inversion Heq; subst.
  exists parts, text, v. repeat split; assumption.
Qed.

(** X4: a two-part message whose payload is valid JSON but not an
    object (null, a boolean, a number, a string or a list) makes the lookup
    of [event_type] raise TypeError; one error line is printed, no hook is
    entered and the loop test is reached again. *)
Theorem non_object_payload_logged (l : EventListener) (t : tick)
    (parts : list bytes) (text : string) (info : json) :
  tick_poll t = PollReady parts ->
  List.length parts = 2 ->
  bytes_decode_utf8 (nth 1 parts []) = Parsed text ->
  json_loads text = Parsed info ->
  (forall items, info <> JDict items) ->
  exists d,
    iteration l t = Next (at_tick l t) [PrintError (ExceptionOf "TypeError" d)].
Proof.
  intros Hpoll Hlen Hdec Hjs Hobj.
  assert (Hget : exists d, getitem info "event_type" = Raise (ExceptionOf "TypeError" d)).
  { destruct info; simpl; eauto. exfalso. apply (Hobj items). reflexivity. }
  destruct Hget as [d Hget]. exists d.
  assert (Hbody : body (tick_poll t) (at_tick l t)
                  = (at_tick l t, [], Raise (ExceptionOf "TypeError" d))).
  { rewrite Hpoll. simpl.
    apply (dispatch_getitem_raises parts text info); assumption. }
  apply (iteration_of_body _ _ _ _ _ Hbody).
Qed.

(** ** Further properties of a run *)

Lemma body_cases (p : poll_outcome) (l : EventListener) :
  (exists r, body p l = (l, [], r)
             /\ (r = Return tt
                 \/ (r = Raise KeyboardInterrupt /\ p = PollInterrupted)
                 \/ exists cls d, r = Raise (ExceptionOf cls d)))
  \/ (exists parts info v f,
        p = PollReady parts
        /\ attr (selected v) l = Installed f
        /\ body p l
           = (if cb_stops (f info) then stop l else l,
              [Invoke (selected v) info],
              match cb_raises (f info) with
              | Some e => Raise e
              | None => Return tt
              end)).
Proof.
  destruct p as [| parts | | d]; simpl.
  - left. exists (Return tt). auto.
  - destruct (dispatch_cases parts l)
      as [(r & Hd & Hr) | (text & info & v & f & _ & _ & _ & _ & Hattr & Hd)].
    + left. exists r. split; [exact Hd |]. destruct Hr as [-> | Hr]; auto.
    + right. exists parts, info, v, f. auto.
  - left. exists (Raise KeyboardInterrupt). auto.
  - left. eexists. split; [reflexivity |]. right. right. eauto.
Qed.

Lemma result_output_emit (pre : list event) (r : run_result) :
  result_output (emit_before pre r) = pre ++ result_output r.
Proof. destruct r; reflexivity. Qed.

Lemma stubs_variant (l l' : EventListener) :
  flag_variant l l' ->
  spike_callback l = ClassStub -> ttl_callback l = ClassStub ->
  spike_callback l' = ClassStub /\ ttl_callback l' = ClassStub.
Proof.
  intros Hv Hs Ht. destruct (flag_variant_frame _ _ Hv) as (_ & _ & _ & Es & Et).
  rewrite Es, Et. auto.
Qed.

Lemma iteration_stubs_silent (l : EventListener) (t : tick) :
  spike_callback l = ClassStub -> ttl_callback l = ClassStub ->
  invocations (step_output (iteration l t)) = [].
Proof.
  intros Hs Ht.
  destruct (stubs_variant l (at_tick l t) (at_tick_state l t) Hs Ht) as [Hs' Ht'].
  unfold iteration.
  destruct (body_cases (tick_poll t) (at_tick l t))
    as [(r & Hb & Hr) | (parts & info & v & f & _ & Hattr & _)].
  - rewrite Hb.
    destruct Hr as [-> | [[-> _] | (cls & d & ->)]]; reflexivity.
  - exfalso. destruct (selected v); simpl in Hattr; congruence.
Qed.

Lemma run_loop_stubs_silent (world : list tick) (l : EventListener) :
  spike_callback l = ClassStub -> ttl_callback l = ClassStub ->
  invocations (result_output (run_loop l world)) = [].
Proof.
  revert l. induction world as [| t world IH]; intros l Hs Ht; simpl.
  - destruct (running l); reflexivity.
  - destruct (running l); [| reflexivity].
    pose proof (iteration_stubs_silent l t Hs Ht) as Hit.
    pose proof (iteration_state l t) as Hv.
    destruct (iteration l t) as [l1 o1 | l1 o1 | e1 l1 o1]; simpl in *;
      try exact Hit.
    destruct (stubs_variant l l1 Hv Hs Ht) as [Hs1 Ht1].
    rewrite result_output_emit, invocations_app, Hit, (IH l1 Hs1 Ht1).
    reflexivity.
Qed.

(** X5: a listener whose two hooks are the stubs of the class never
    enters a hook, whatever the world sends for however long. *)
Theorem stubs_never_entered (l : EventListener) (world : list tick) :
  spike_callback l = ClassStub ->
  ttl_callback l = ClassStub ->
  invocations (result_output (start l world)) = [].
Proof.
  intros Hs Ht. unfold start.
  pose proof (run_loop_stubs_silent world (set_running l true) Hs Ht) as H.
  destruct (run_loop (set_running l true) world) as [w l1 o1 | e1 l1 o1 | l1 o1];
    simpl in *; try exact H.
  rewrite invocations_app, H. reflexivity.
Qed.

Lemma run_loop_invocations_bound (world : list tick) (l : EventListener) :
  List.length (invocations (result_output (run_loop l world))) <= List.length world.
Proof.
  revert l. induction world as [| t world IH]; intros l; simpl.
  - destruct (running l); simpl; lia.
  - destruct (running l); [| simpl; lia].
    pose proof (iteration_invocations_le l t) as Hone.
    destruct (iteration l t) as [l1 o1 | l1 o1 | e1 l1 o1]; simpl in *; try lia.
    rewrite result_output_emit, invocations_app, length_app.
    specialize (IH l1). lia.
Qed.

(** X6: over a whole run, the hooks are entered at most once per turn
    of the loop. *)
Theorem invocations_bounded_by_turns (l : EventListener) (world : list tick) :
  List.length (invocations (result_output (start l world))) <= List.length world.
Proof.
  unfold start.
  pose proof (run_loop_invocations_bound world (set_running l true)) as H.
  destruct (run_loop (set_running l true) world) as [w l1 o1 | e1 l1 o1 | l1 o1];
    simpl in *; try exact H.
  rewrite invocations_app. simpl. rewrite app_nil_r. exact H.
Qed.

(** *** The loop goes on until asked to end *)

Lemma hooks_passive_attr (l : EventListener) (h : hook) :
  hooks_passive l -> passive (attr h l).
Proof. intros [Hs Ht]. destruct h; assumption. Qed.

Lemma iteration_calm (l : EventListener) (t : tick) :
  hooks_passive l -> calm t = true ->
  exists out, iteration l t = Next l out.
Proof.
  intros Hp Hcalm. unfold calm in Hcalm.
  apply andb_prop in Hcalm. destruct Hcalm as [Hstop Hpoll].
  apply negb_true_iff in Hstop.
  unfold iteration, at_tick. rewrite Hstop.
  destruct (body_cases (tick_poll t) l)
    as [(r & Hb & Hr) | (parts & info & v & f & _ & Hattr & Hb)]; rewrite Hb.
  - destruct Hr as [-> | [[_ Hint] | (cls & d & ->)]]; eauto.
    rewrite Hint in Hpoll. discriminate.
  - pose proof (hooks_passive_attr l (selected v) Hp) as Hpas.
    rewrite Hattr in Hpas. simpl in Hpas.
    destruct (Hpas info) as [Hns Hexn]. rewrite Hns.
    destruct (cb_raises (f info)) as [e |]; eauto.
    specialize (Hexn e eq_refl). destruct e; try discriminate. eauto.
Qed.

Lemma run_loop_calm (world : list tick) (l : EventListener) :
  hooks_passive l -> running l = true -> forallb calm world = true ->
  exists out, run_loop l world = Polling l out.
Proof.
  intros Hp Hr. induction world as [| t world IH]; intros Hall; simpl.
  - rewrite Hr. eauto.
  - simpl in Hall. apply andb_prop in Hall. destruct Hall as [Ht Hw].
    rewrite Hr. destruct (iteration_calm l t Hp Ht) as [o1 ->].
    destruct (IH Hw) as [o2 ->]. simpl. eauto.
Qed.

(** X7: when no tick carries a [stop()] or an interrupt and no
    installed callable calls [stop()] or raises outside Exception, [start]
    does not return: however long the world, it is still in the loop with
    the flag set - timeouts, malformed messages, socket errors and failing
    callables never end it. *)
Theorem loop_only_ends_when_asked (l : EventListener) (world : list tick) :
  hooks_passive l ->
  forallb calm world = true ->
  exists out, start l world = Polling (set_running l true) out.
Proof.
  intros Hp Hall. unfold start.
  destruct (run_loop_calm world (set_running l true)) as [out ->]; eauto.
Qed.

(** *** Leaving the loop *)

Lemma run_loop_after_stop (l : EventListener) (t : tick) (world : list tick) :
  running l = true -> tick_stop t = true ->
  run_loop l (t :: world) = run_loop l [t].
Proof.
  intros Hr Hs. rewrite !(run_loop_cons l t) by exact Hr.
  assert (Hstopped : running (at_tick l t) = false)
    by (unfold at_tick; rewrite Hs; reflexivity).
  pose proof (body_keeps_stopped (tick_poll t) _ Hstopped) as Hb.
  unfold iteration.
  destruct (body (tick_poll t) (at_tick l t)) as [[l1 out] r]. simpl in Hb.
  destruct r as [u | [| c d | c]]; try reflexivity;
    rewrite !(run_loop_stopped l1) by exact Hb; reflexivity.
Qed.

(** X8: a [stop()] issued from outside during an iteration ends the run
    at the next loop test: [start] returns with the flag cleared, and what
    the world would have sent afterwards is never looked at. *)
Theorem stop_request_returns (l : EventListener) (t : tick) (world : list tick) :
  hooks_catchable l ->
  tick_stop t = true ->
  start l (t :: world) = start l [t]
  /\ exists why l' out,
       start l (t :: world) = Returned why l' out /\ running l' = false.
Proof.
  intros Hc Hs.
  assert (Hc' : hooks_catchable (set_running l true))
    by (apply (hooks_catchable_variant l); [exists true; reflexivity | exact Hc]).
  split.
  - unfold start. rewrite (run_loop_after_stop _ t world); auto.
  - unfold start.
    destruct (stop_ends_loop (set_running l true) t world Hc' eq_refl Hs)
      as (why & l' & out & -> & Hr).
    eauto.
Qed.

(** X9: an interrupt while polling ends [start] at once by an
    ordinary return; its whole output is the three lines below, later ticks
    are not consumed, and the flag is left as the iteration found it: set,
    unless [stop()] was called during that same iteration. *)
Theorem interrupt_ends_start (l : EventListener) (t : tick) (world : list tick) :
  tick_poll t = PollInterrupted ->
  start l (t :: world)
  = Returned Interrupted (set_running l (negb (tick_stop t)))
      [Print "Starting EventListener";
       Print "Stopped by KeyboardInterrupt";
       Print "EventListener stopped."].
Proof.
  intros Hpoll. unfold start.
  rewrite (run_loop_cons (set_running l true) t world eq_refl).
  unfold iteration, at_tick. rewrite Hpoll. simpl.
  destruct (tick_stop t); reflexivity.
Qed.

(** *** Composition *)

Lemma emit_before_app (a b : list event) (r : run_result) :
  emit_before a (emit_before b r) = emit_before (a ++ b) r.
Proof. destruct r; simpl; rewrite app_assoc; reflexivity. Qed.

(** X10: the loop consumes the world piecewise: running it on [w1 ++ w2]
    is running it on [w1] and, if it is still polling then, going on with
    [w2] from the state reached; once it has returned or raised, [w2] is
    not looked at. *)
Theorem run_loop_app (w1 w2 : list tick) (l : EventListener) :
  run_loop l (w1 ++ w2)
  = match run_loop l w1 with
    | Polling l' out => emit_before out (run_loop l' w2)
    | r => r
    end.
Proof.
  revert l. induction w1 as [| t w1 IH]; intros l.
  - simpl. destruct (running l) eqn:Hr.
    + rewrite emit_before_nil. reflexivity.
    + apply run_loop_stopped, Hr.
  - simpl. destruct (running l); [| reflexivity].
    destruct (iteration l t) as [l1 o1 | l1 o1 | e1 l1 o1]; try reflexivity.
    rewrite IH.
    destruct (run_loop l1 w1) as [w l2 o2 | e2 l2 o2 | l2 o2]; simpl;
      try reflexivity.
    apply emit_before_app.
Qed.

(** X11: [start] sets the flag itself, so the flag it finds does not
    matter: a [stop()] issued before [start] is forgotten, and a listener on
    which an earlier [start] has ended - by flag, interrupt or escaping
    exception - starts again exactly as the original listener would. *)
Theorem start_forgets_flag (l : EventListener) (w1 w2 : list tick) :
  start (stop l) w2 = start l w2
  /\ start (result_state (start l w1)) w2 = start l w2.
Proof.
  split; [reflexivity |].
  destruct (start_state l w1) as [b ->]. reflexivity.
Qed.

(** X12: [start] writes the running flag and nothing else: on every
    world and whichever way it is left, the url, the context, the socket and
    the two hook attributes are those it found. *)
Theorem start_frame (l : EventListener) (world : list tick) :
  url (result_state (start l world)) = url l
  /\ context (result_state (start l world)) = context l
  /\ socket (result_state (start l world)) = socket l
  /\ spike_callback (result_state (start l world)) = spike_callback l
  /\ ttl_callback (result_state (start l world)) = ttl_callback l.
Proof. apply flag_variant_frame, start_state. Qed.

(** *** What is printed *)

Lemma iteration_prints (l : EventListener) (t : tick) :
  match iteration l t with
  | Break _ out =>
      exists pre, out = pre ++ [Print "Stopped by KeyboardInterrupt"]
                  /\ existsb is_print pre = false
  | Next _ out | Escape _ _ out => existsb is_print out = false
  end.
Proof.
  unfold iteration.
  destruct (body_cases (tick_poll t) (at_tick l t))
    as [(r & Hb & Hr) | (parts & info & v & f & _ & _ & Hb)]; rewrite Hb.
  - destruct Hr as [-> | [[-> _] | (cls & d & ->)]]; simpl; auto.
    exists []. auto.
  - destruct (cb_raises (f info)) as [[| cls d | cls] |]; simpl; auto.
    exists [Invoke (selected v) info]. auto.
Qed.

Lemma run_loop_prints (world : list tick) (l : EventListener) :
  match run_loop l world with
  | Returned Interrupted _ out =>
      exists pre, out = pre ++ [Print "Stopped by KeyboardInterrupt"]
                  /\ existsb is_print pre = false
  | Returned FlagCleared _ out | Raised _ _ out | Polling _ out =>
      existsb is_print out = false
  end.
Proof.
  revert l. induction world as [| t world IH]; intros l; simpl.
  - destruct (running l); reflexivity.
  - destruct (running l); [| reflexivity].
    pose proof (iteration_prints l t) as Hit.
    destruct (iteration l t) as [l1 o1 | l1 o1 | e1 l1 o1]; try exact Hit.
    specialize (IH l1).
    destruct (run_loop l1 world) as [[|] l2 o2 | e2 l2 o2 | l2 o2]; simpl;
      try (rewrite existsb_app, Hit, IH; reflexivity).
    destruct IH as (pre & -> & Hpre).
    exists (o1 ++ pre). rewrite app_assoc, existsb_app, Hit, Hpre. auto.
Qed.

(** X13: when [start] returns, its output opens with the start line
    and closes with the stopped line; between them the interrupt line is
    printed exactly when the loop was left by an interrupt, and then as the
    last line, and no other plain line is ever printed there (only error
    lines and hook entries). *)
Theorem start_output_framing (l l' : EventListener) (world : list tick)
    (why : exit_reason) (out : list event) :
  start l world = Returned why l' out ->
  exists mid,
    out = Print "Starting EventListener" :: mid ++ [Print "EventListener stopped."]
    /\ match why with
       | FlagCleared => existsb is_print mid = false
       | Interrupted =>
           exists pre, mid = pre ++ [Print "Stopped by KeyboardInterrupt"]
                       /\ existsb is_print pre = false
       end.
Proof.
  unfold start. intros H.
  pose proof (run_loop_prints world (set_running l true)) as Hp.
  destruct (run_loop (set_running l true) world) as [w l2 o2 | e2 l2 o2 | l2 o2];
    try discriminate.
  inversion H; subst. exists o2. split; [reflexivity | exact Hp].
Qed.

(** *** The first frame *)

Lemma iteration_retopic (topic : bytes) (l : EventListener) (t : tick) :
  iteration l (retopic topic t) = iteration l t.
Proof.
  unfold retopic.
  destruct (tick_poll t) as [| parts | | d] eqn:Hpoll; try reflexivity.
  destruct parts as [| a [| b [| c rest]]]; try reflexivity.
  unfold iteration, at_tick. simpl. rewrite Hpoll. reflexivity.
Qed.

(** X14: the first frame of a message is never read: replacing the first
    frame of every two-frame message of the world by any other frame changes
    neither the result of [start], nor its output, nor the final state. *)
Theorem topic_frame_ignored (topic : bytes) (world : list tick) (l : EventListener) :
  start l (map (retopic topic) world) = start l world.
Proof.
  unfold start.
  assert (H : forall l0, run_loop l0 (map (retopic topic) world) = run_loop l0 world).
  { induction world as [| t world IH]; intros l0; simpl; [reflexivity |].
    rewrite iteration_retopic.
    destruct (running l0); [| reflexivity].
    destruct (iteration l0 t) as [l1 o1 | l1 o1 | e1 l1 o1]; try reflexivity.
    rewrite IH. reflexivity. }
  rewrite H. reflexivity.
Qed.

(** *** A callable that stops the listener *)

(** X15: when the callable selected for a well-formed event calls
    [stop()] and returns, that event is the last one handled: [start]
    returns by the flag right after it, with the flag cleared. *)
Theorem callback_stop_returns (l : EventListener) (t : tick) (world : list tick)
    (parts : list bytes) (text : string) (info v : json) (f : callable) :
  tick_poll t = PollReady parts ->
  List.length parts = 2 ->
  bytes_decode_utf8 (nth 1 parts []) = Parsed text ->
  json_loads text = Parsed info ->
  getitem info "event_type" = Return v ->
  attr (selected v) l = Installed f ->
  cb_stops (f info) = true ->
  cb_raises (f info) = None ->
  start l (t :: world)
  = Returned FlagCleared (stop l)
      [Print "Starting EventListener"; Invoke (selected v) info;
       Print "EventListener stopped."].
Proof.
  intros Hpoll Hlen Hdec Hjs Hget Hattr Hstop Hraise. unfold start.
  rewrite (run_loop_cons (set_running l true) t world eq_refl).
  unfold iteration. rewrite Hpoll. simpl.
  rewrite (dispatch_calls parts text info v _ Hlen Hdec Hjs Hget).
  fold (selected v). unfold call_hook.
  rewrite at_tick_hooks.
  replace (attr (selected v) (set_running l true)) with (attr (selected v) l)
    by (destruct (selected v); reflexivity).
  rewrite Hattr, Hstop, Hraise.
  rewrite run_loop_stopped by reflexivity.
  unfold at_tick. destruct (tick_stop t); reflexivity.
Qed.

End LoopProperties.

(** ** The endpoint *)

Lemma append_cancel_l (a x y : string) : (a ++ x = a ++ y)%string -> x = y.
Proof.
  induction a as [| c a IH]; simpl; intros H; [exact H |].
  inversion H. auto.
Qed.

Lemma to_int_printable (n : Z) :
  Z.to_int n <> Decimal.Pos Decimal.Nil /\ Z.to_int n <> Decimal.Neg Decimal.Nil.
Proof.
  destruct n as [| p | p]; simpl; split; try discriminate;
    intros H; inversion H as [Hp]; exact (Unsigned.to_uint_nonnil p Hp).
Qed.

Lemma format_d_inj (n m : Z) : format_d n = format_d m -> n = m.
Proof.
  unfold format_d. intros H.
  destruct (to_int_printable n) as [Hn1 Hn2].
  destruct (to_int_printable m) as [Hm1 Hm2].
  pose proof (NilZero.isi _ Hn1 Hn2) as En.
  pose proof (NilZero.isi _ Hm1 Hm2) as Em.
  rewrite H in En. rewrite En in Em. inversion Em.
  apply DecimalZ.to_int_inj. assumption.
Qed.

(** X16: the endpoint [__init__] connects the socket to determines
    the port: two listeners built for the same address connect to the same
    endpoint only if they were given the same port. *)
Theorem endpoint_determines_port (ip : string) (p1 p2 : Z) :
  sock_endpoints (socket (fst (init ip p1)))
  = sock_endpoints (socket (fst (init ip p2))) ->
  p1 = p2.
Proof.
  intros H.
  change ([url (fst (init ip p1))] = [url (fst (init ip p2))]) in H.
  injection H as Hu.
  apply format_d_inj, (append_cancel_l ":"), (append_cancel_l ip).
  exact Hu.
Qed.

(** ** Concrete runs *)

(** The class as shipped: a stub reached through the instance rejects the
    call before its body is entered. *)
Lemma class_stub_call_fails (h : hook) (info : json) (l : EventListener) :
  attr h l = ClassStub ->
  exists d, call_hook h info l = (l, [], Raise (ExceptionOf "TypeError" d)).
Proof. intros H. unfold call_hook. rewrite H. eauto. Qed.

(** C1 (defect): on a listener as [__init__] builds it, the spike message of
    scenario 1 reaches the call [self.spike_callback(info)], but the stub
    declared as [def spike_callback(info)] is bound to the instance, the call
    fails with TypeError, the handler prints it, and no hook is entered with
    the decoded object. *)
Theorem default_spike_stub_not_entered :
  Sample.iteration default_listener
    (quiet (PollReady [Sample.topic; Sample.spike_frame]))
  = Next default_listener
      [PrintError (ExceptionOf "TypeError"
         "EventListener.spike_callback() takes 1 positional argument but 2 were given")]
  /\ invocations (step_output (Sample.iteration default_listener
        (quiet (PollReady [Sample.topic; Sample.spike_frame])))) = [].
Proof. split; vm_compute; reflexivity. Qed.

(** C3 (defect): [start] has no parameter besides [self], so the call of the
    class docstring, [start(ttl_callback = f)], and a call with two
    positional callables both fail with TypeError before the loop is
    entered; and the TTL stub of the class, reached by the loop on the TTL
    message of scenario 2, is not a no-op: the call fails and an error line
    is printed. *)
Theorem start_takes_no_callbacks :
  Sample.start_call default_listener [] [("ttl_callback", Sample.noop)]
    [quiet PollInterrupted]
  = Raised (ExceptionOf "TypeError"
      "EventListener.start() got an unexpected keyword argument ttl_callback")
      default_listener []
  /\ Sample.start_call default_listener [Sample.noop; Sample.noop] []
       [quiet PollInterrupted]
     = Raised (ExceptionOf "TypeError"
         "EventListener.start() takes 1 positional argument but more were given")
         default_listener []
  /\ Sample.iteration default_listener
       (quiet (PollReady [Sample.topic; Sample.ttl_frame]))
     = Next default_listener
         [PrintError (ExceptionOf "TypeError"
            "EventListener.ttl_callback() takes 1 positional argument but 2 were given")].
Proof. repeat split; vm_compute; reflexivity. Qed.

(** Scenarios 1 and 2 with callables installed on the instance. *)
Example scenario_spike :
  Sample.iteration Sample.listener (quiet (PollReady [Sample.topic; Sample.spike_frame]))
  = Next Sample.listener [Invoke SpikeHook Sample.spike_event].
Proof. vm_compute. reflexivity. Qed.

Example scenario_ttl :
  Sample.iteration Sample.listener (quiet (PollReady [Sample.topic; Sample.ttl_frame]))
  = Next Sample.listener [Invoke TtlHook Sample.ttl_event].
Proof. vm_compute. reflexivity. Qed.

(** C2, as stated, fails on scenario 4: the payload decodes and parses to an
    object without [event_type], and the TTL callable is not entered. *)
Lemma missing_event_type_counterexample :
  Sample.bytes_decode_utf8 Sample.channel_frame = Parsed Sample.channel_text
  /\ Sample.json_loads Sample.channel_text = Parsed Sample.channel_event
  /\ invocations (step_output (Sample.iteration Sample.listener
        (quiet (PollReady [Sample.topic; Sample.channel_frame]))))
     <> [(TtlHook, Sample.channel_event)].
Proof.
  split; [vm_compute; reflexivity | split; [vm_compute; reflexivity |]].
  vm_compute. discriminate.
Qed.

Lemma missing_event_type_logged_witness :
  Sample.iteration Sample.listener
    (quiet (PollReady [Sample.topic; Sample.channel_frame]))
  = Next Sample.listener [PrintError (ExceptionOf "KeyError" "event_type")].
Proof.
  apply (missing_event_type_logged Sample.bytes_decode_utf8 Sample.json_loads
           Sample.listener (quiet (PollReady [Sample.topic; Sample.channel_frame]))
           [Sample.topic; Sample.channel_frame] Sample.channel_text
           [("channel", JNum "5")] []);
    vm_compute; reflexivity.
Defined.

Lemma wrong_part_count_ignored_witness :
  Sample.iteration Sample.listener (quiet (PollReady [Sample.topic]))
  = Next Sample.listener [].
Proof.
  apply (wrong_part_count_ignored Sample.bytes_decode_utf8 Sample.json_loads
           Sample.listener (quiet (PollReady [Sample.topic])) [Sample.topic] []).
  - reflexivity.
  - simpl. lia.
Defined.

Lemma malformed_payload_logged_witness :
  exists e,
    is_Exception e = true
    /\ Sample.iteration Sample.listener
         (quiet (PollReady [Sample.topic; Sample.broken_frame]))
       = Next Sample.listener [PrintError e].
Proof.
  destruct (malformed_payload_logged Sample.bytes_decode_utf8 Sample.json_loads
              Sample.listener (quiet (PollReady [Sample.topic; Sample.broken_frame]))
              [Sample.topic; Sample.broken_frame] [])
    as (e & He & Hit & _).
  - reflexivity.
  - reflexivity.
  - left. exists "invalid start byte". vm_compute. reflexivity.
  - exists e. split; [exact He | exact Hit].
Defined.






(** ** Concrete runs of the further properties *)

Lemma dispatch_exactly_one_witness :
  invocations (step_output (Sample.iteration Sample.listener
     (quiet (PollReady [Sample.topic; Sample.ttl_frame]))))
  = [(TtlHook, Sample.ttl_event)].
Proof.
  apply (dispatch_exactly_one Sample.bytes_decode_utf8 Sample.json_loads
           Sample.listener (quiet (PollReady [Sample.topic; Sample.ttl_frame]))
           [Sample.topic; Sample.ttl_frame] Sample.ttl_text Sample.ttl_event
           (JStr "ttl") Sample.noop Sample.noop);
    vm_compute; reflexivity.
Defined.

Lemma invocation_sound_witness :
  exists parts text v,
    PollReady [Sample.topic; Sample.spike_frame] = PollReady parts
    /\ List.length parts = 2
    /\ Sample.bytes_decode_utf8 (nth 1 parts []) = Parsed text
    /\ Sample.json_loads text = Parsed Sample.spike_event
    /\ getitem Sample.spike_event "event_type" = Return v
    /\ SpikeHook = (if eq_str v "spike" then SpikeHook else TtlHook).
Proof.
  apply (invocation_sound Sample.bytes_decode_utf8 Sample.json_loads
           Sample.listener (quiet (PollReady [Sample.topic; Sample.spike_frame]))
           SpikeHook Sample.spike_event).
  vm_compute. left. reflexivity.
Defined.

Lemma non_object_payload_logged_witness :
  exists d,
    SampleScalar.iteration Sample.listener
      (quiet (PollReady [Sample.topic; SampleScalar.number_frame]))
    = Next Sample.listener [PrintError (ExceptionOf "TypeError" d)].
Proof.
  apply (non_object_payload_logged Sample.bytes_decode_utf8 SampleScalar.json_loads
           Sample.listener
           (quiet (PollReady [Sample.topic; SampleScalar.number_frame]))
           [Sample.topic; SampleScalar.number_frame] "5" (JNum "5"));
    try (vm_compute; reflexivity).
  intros items. discriminate.
Defined.

Lemma stubs_never_entered_witness :
  invocations (result_output (Sample.start default_listener
     [quiet (PollReady [Sample.topic; Sample.spike_frame]);
      quiet (PollReady [Sample.topic; Sample.ttl_frame]);
      quiet PollInterrupted])) = [].
Proof.
  apply (stubs_never_entered Sample.bytes_decode_utf8 Sample.json_loads
           default_listener); reflexivity.
Defined.

Lemma loop_only_ends_when_asked_witness :
  exists out,
    Sample.start (install default_listener Sample.failing Sample.failing)
      [quiet PollTimeout;
       quiet (PollReady [Sample.topic; Sample.garbage_frame]);
       quiet (PollError "Context was terminated");
       quiet (PollReady [Sample.topic; Sample.spike_frame])]
    = Polling (set_running (install default_listener Sample.failing Sample.failing) true)
        out.
Proof.
  apply (loop_only_ends_when_asked Sample.bytes_decode_utf8 Sample.json_loads
           (install default_listener Sample.failing Sample.failing)).
  - split; simpl; intros info; (split; [reflexivity |]);
      intros e H; inversion H; reflexivity.
  - reflexivity.
Defined.

Lemma stop_request_returns_witness :
  Sample.start Sample.listener
    [{| tick_stop := true; tick_poll := PollTimeout |};
     quiet (PollReady [Sample.topic; Sample.spike_frame])]
  = Sample.start Sample.listener [{| tick_stop := true; tick_poll := PollTimeout |}].
Proof.
  apply (stop_request_returns Sample.bytes_decode_utf8 Sample.json_loads
           Sample.listener {| tick_stop := true; tick_poll := PollTimeout |}
           [quiet (PollReady [Sample.topic; Sample.spike_frame])]).
  - split; simpl; intros info cls; discriminate.
  - reflexivity.
Defined.

Lemma interrupt_ends_start_witness :
  Sample.start Sample.listener
    [quiet PollInterrupted; quiet (PollReady [Sample.topic; Sample.spike_frame])]
  = Returned Interrupted (set_running Sample.listener true)
      [Print "Starting EventListener";
       Print "Stopped by KeyboardInterrupt";
       Print "EventListener stopped."].
Proof.
  apply (interrupt_ends_start Sample.bytes_decode_utf8 Sample.json_loads
           Sample.listener (quiet PollInterrupted)).
  reflexivity.
Defined.

Lemma start_output_framing_witness :
  exists mid,
    [Print "Starting EventListener"; Invoke SpikeHook Sample.spike_event;
     Print "Stopped by KeyboardInterrupt"; Print "EventListener stopped."]
    = Print "Starting EventListener" :: mid ++ [Print "EventListener stopped."]
    /\ exists pre, mid = pre ++ [Print "Stopped by KeyboardInterrupt"]
                   /\ existsb is_print pre = false.
Proof.
  apply (start_output_framing Sample.bytes_decode_utf8 Sample.json_loads
           Sample.listener (set_running Sample.listener true)
           [quiet (PollReady [Sample.topic; Sample.spike_frame]);
            quiet PollInterrupted]
           Interrupted).
  vm_compute. reflexivity.
Defined.

Lemma callback_stop_returns_witness :
  Sample.start (install default_listener Sample.stopper Sample.noop)
    [quiet (PollReady [Sample.topic; Sample.spike_frame]);
     quiet (PollReady [Sample.topic; Sample.ttl_frame])]
  = Returned FlagCleared (stop (install default_listener Sample.stopper Sample.noop))
      [Print "Starting EventListener"; Invoke SpikeHook Sample.spike_event;
       Print "EventListener stopped."].
Proof.
  apply (callback_stop_returns Sample.bytes_decode_utf8 Sample.json_loads
           (install default_listener Sample.stopper Sample.noop)
           (quiet (PollReady [Sample.topic; Sample.spike_frame]))
           [quiet (PollReady [Sample.topic; Sample.ttl_frame])]
           [Sample.topic; Sample.spike_frame] Sample.spike_text Sample.spike_event
           (JStr "spike") Sample.stopper);
    vm_compute; reflexivity.
Defined.

Lemma endpoint_determines_port_witness :
  sock_endpoints (socket (fst (init "127.0.0.1" 5557)))
  = sock_endpoints (socket (fst (init "127.0.0.1" (5550 + 7))))
  /\ (5557 = 5550 + 7)%Z.
Proof.
  split; [reflexivity |].
  apply (endpoint_determines_port "127.0.0.1" 5557 (5550 + 7)). reflexivity.
Defined.
